(** * Parlance REPL terminal bridge: [ffi/parlance_repl.c]

    A shallow embedding of the four exported operations of the C bridge
    (enter raw mode, restore the saved mode, query the window size, read
    one byte) together with the two file-scope variables they share, and
    the properties of the terminal session they implement.

    The operating system is not part of the program.  Each system call is
    given here as a function of the terminal's live attributes and of an
    explicit _outcome_ supplied by the environment (does the call succeed,
    what does it leave in the caller's buffer).  A successful [tcsetattr]
    installs the attributes it is handed, a failing one installs nothing,
    and a successful [tcgetattr] reports the live attributes. *)

From Stdlib Require Import ZArith String Bool Lia.
From stdpp Require Import base list.

Local Open Scope string_scope.
Local Open Scope Z_scope.

(** ** [<termios.h>] *)

(** [struct termios]: the four flag words, the control-character array and
    whatever further members the platform adds (line discipline, speeds). *)
Record termios : Type := Termios {
  c_iflag : Z;
  c_oflag : Z;
  c_cflag : Z;
  c_lflag : Z;
  c_cc : list Z;
  c_other : list Z
}.

(** The constants of the system header the source is compiled against.
    [tcflag_bits] is the width of [tcflag_t], [other_members] the number
    of members [struct termios] has beyond the flags and [c_cc]. *)
Class termios_h : Type := {
  tcflag_bits : Z;
  other_members : nat;
  NCCS : nat;
  BRKINT : Z;
  ICRNL : Z;
  INPCK : Z;
  ISTRIP : Z;
  IXON : Z;
  CS8 : Z;
  ECHO : Z;
  ICANON : Z;
  IEXTEN : Z;
  ISIG : Z;
  VMIN : nat;
  VTIME : nat
}.

(** glibc on x86-64 Linux ([bits/termios.h], octal there). *)
Definition linux : termios_h := {|
  tcflag_bits := 32;
  other_members := 3;
  NCCS := 32;
  BRKINT := 2;
  ICRNL := 256;
  INPCK := 16;
  ISTRIP := 32;
  IXON := 1024;
  CS8 := 48;
  ECHO := 8;
  ICANON := 2;
  IEXTEN := 32768;
  ISIG := 1;
  VMIN := 6;
  VTIME := 5
|}.

(** Darwin ([sys/termios.h]); [tcflag_t] is [unsigned long] there. *)
Definition darwin : termios_h := {|
  tcflag_bits := 64;
  other_members := 2;
  NCCS := 20;
  BRKINT := 2;
  ICRNL := 256;
  INPCK := 16;
  ISTRIP := 32;
  IXON := 512;
  CS8 := 768;
  ECHO := 8;
  ICANON := 256;
  IEXTEN := 1024;
  ISIG := 128;
  VMIN := 16;
  VTIME := 17
|}.

(** [struct winsize] of [<sys/ioctl.h>], the two members the source reads. *)
Record winsize : Type := Winsize {
  ws_row : Z;
  ws_col : Z
}.

(** ** The Lean side of the boundary *)

(** [lean_io_result_mk_ok v] and
    [lean_io_result_mk_error (lean_mk_io_user_error (lean_mk_string msg))]. *)
Inductive lean_io_result (A : Type) : Type :=
  | lean_io_result_mk_ok (v : A)
  | lean_io_result_mk_error (msg : string).

Arguments lean_io_result_mk_ok {A} v.
Arguments lean_io_result_mk_error {A} msg.

(** ** System calls, driven by the environment *)

(** What [tcgetattr] does on one call: succeed, or fail and leave [buf] in
    the caller's buffer (POSIX does not say the buffer is untouched). *)
Inductive tcgetattr_outcome : Type :=
  | tcget_ok
  | tcget_fails (buf : termios).

Inductive tcsetattr_outcome : Type :=
  | tcset_ok
  | tcset_fails.

(** Result of [ioctl(STDOUT_FILENO, TIOCGWINSZ, &ws)]: the return value and
    the contents of [ws] after the call. *)
Record ioctl_outcome : Type := Ioctl {
  ioctl_ret : Z;
  ioctl_ws : winsize
}.

(** Result of [read(STDIN_FILENO, &c, 1)]: the return value and the
    contents of [c] after the call. *)
Record read_outcome : Type := ReadOutcome {
  read_ret : Z;
  read_c : Z
}.

(** [tcgetattr(STDIN_FILENO, &buf)]: return value and new contents of [buf]. *)
Definition tcgetattr (o : tcgetattr_outcome) (live : termios) : Z * termios :=
  match o with
  | tcget_ok => (0, live)
  | tcget_fails buf => (-1, buf)
  end.

(** [tcsetattr(STDIN_FILENO, TCSAFLUSH, &new)]: return value and the live
    attributes after the call. *)
Definition tcsetattr (o : tcsetattr_outcome) (live new : termios) : Z * termios :=
  match o with
  | tcset_ok => (0, new)
  | tcset_fails => (-1, live)
  end.

(** ** Program state *)

(** The two file-scope variables of the source, and beside them the live
    attributes of the terminal on standard input. *)
Record state : Type := State {
  original_termios : termios;
  raw_mode_enabled : Z;
  tty : termios
}.

Definition set_original_termios (t : termios) (s : state) : state :=
  State t (raw_mode_enabled s) (tty s).

Definition set_raw_mode_enabled (v : Z) (s : state) : state :=
  State (original_termios s) v (tty s).

Definition set_tty (t : termios) (s : state) : state :=
  State (original_termios s) (raw_mode_enabled s) t.

Section Bridge.

Context {hdr : termios_h}.

(** Conversion of an [int] expression to [tcflag_t]. *)
Definition to_tcflag (z : Z) : Z := z mod 2 ^ tcflag_bits.

(** A zero-filled [struct termios], as static storage starts out. *)
Definition zero_termios : termios :=
  Termios 0 0 0 0 (replicate NCCS 0) (replicate other_members 0).

(** State at program start: both statics zero, terminal as inherited. *)
Definition initial (inherited : termios) : state :=
  State zero_termios 0 inherited.

(** Lines 25-41: the local [raw], derived from the saved attributes. *)
Definition raw (orig : termios) : termios :=
  let r := orig in
  let r := Termios
             (Z.land (c_iflag r)
                     (to_tcflag (Z.lnot (Z.lor (Z.lor (Z.lor (Z.lor BRKINT ICRNL) INPCK) ISTRIP) IXON))))
             (c_oflag r) (c_cflag r) (c_lflag r) (c_cc r) (c_other r) in
  let r := Termios (c_iflag r) (c_oflag r)
             (Z.lor (c_cflag r) (to_tcflag CS8))
             (c_lflag r) (c_cc r) (c_other r) in
  let r := Termios (c_iflag r) (c_oflag r) (c_cflag r)
             (Z.land (c_lflag r)
                     (to_tcflag (Z.lnot (Z.lor (Z.lor (Z.lor ECHO ICANON) IEXTEN) ISIG))))
             (c_cc r) (c_other r) in
  let r := Termios (c_iflag r) (c_oflag r) (c_cflag r) (c_lflag r)
             (<[VMIN := 0]> (c_cc r)) (c_other r) in
  let r := Termios (c_iflag r) (c_oflag r) (c_cflag r) (c_lflag r)
             (<[VTIME := 0]> (c_cc r)) (c_other r) in
  r.

(** [parlance_repl_enable_raw_mode]. *)
Definition parlance_repl_enable_raw_mode
    (g : tcgetattr_outcome) (a : tcsetattr_outcome) (s : state)
    : state * lean_io_result unit :=
  if negb (raw_mode_enabled s =? 0) then
    (s, lean_io_result_mk_ok tt)
  else
    let '(rc, buf) := tcgetattr g (tty s) in
    let s := set_original_termios buf s in
    if rc =? -1 then
      (s, lean_io_result_mk_error "Failed to get terminal attributes")
    else
      let '(rc, live) := tcsetattr a (tty s) (raw (original_termios s)) in
      let s := set_tty live s in
      if rc =? -1 then
        (s, lean_io_result_mk_error "Failed to set terminal to raw mode")
      else
        (set_raw_mode_enabled 1 s, lean_io_result_mk_ok tt).

(** [parlance_repl_disable_raw_mode]. *)
Definition parlance_repl_disable_raw_mode
    (a : tcsetattr_outcome) (s : state) : state * lean_io_result unit :=
  if raw_mode_enabled s =? 0 then
    (s, lean_io_result_mk_ok tt)
  else
    let '(rc, live) := tcsetattr a (tty s) (original_termios s) in
    let s := set_tty live s in
    if rc =? -1 then
      (s, lean_io_result_mk_error "Failed to restore terminal settings")
    else
      (set_raw_mode_enabled 0 s, lean_io_result_mk_ok tt).

(** [parlance_repl_get_size]: the pair is (width, height). *)
Definition parlance_repl_get_size
    (q : ioctl_outcome) (s : state) : state * lean_io_result (Z * Z) :=
  let ws := ioctl_ws q in
  let ws :=
    if (ioctl_ret q =? -1) || (ws_col ws =? 0)
    then {| ws_col := 80; ws_row := 24 |}
    else ws in
  (s, lean_io_result_mk_ok (ws_col ws, ws_row ws)).

(** [parlance_repl_read_byte]: [Option UInt8]. *)
Definition parlance_repl_read_byte
    (r : read_outcome) (s : state) : state * lean_io_result (option Z) :=
  let c := read_c r in
  let nread := read_ret r in
  if nread =? 1 then
    (s, lean_io_result_mk_ok (Some c))
  else
    (s, lean_io_result_mk_ok None).

(** ** Sequences of calls *)

(** One call across the boundary, with what the environment answers to the
    system calls it makes. *)
Inductive call : Type :=
  | enable_raw_mode (g : tcgetattr_outcome) (a : tcsetattr_outcome)
  | disable_raw_mode (a : tcsetattr_outcome)
  | get_terminal_size (q : ioctl_outcome)
  | read_byte (r : read_outcome).

Inductive reply : Type :=
  | unit_reply (r : lean_io_result unit)
  | size_reply (r : lean_io_result (Z * Z))
  | byte_reply (r : lean_io_result (option Z)).

Definition step (c : call) (s : state) : state * reply :=
  match c with
  | enable_raw_mode g a =>
      let '(s', r) := parlance_repl_enable_raw_mode g a s in (s', unit_reply r)
  | disable_raw_mode a =>
      let '(s', r) := parlance_repl_disable_raw_mode a s in (s', unit_reply r)
  | get_terminal_size q =>
      let '(s', r) := parlance_repl_get_size q s in (s', size_reply r)
  | read_byte r =>
      let '(s', r) := parlance_repl_read_byte r s in (s', byte_reply r)
  end.

Fixpoint run (cs : list call) (s : state) : state :=
  match cs with
  | [] => s
  | c :: cs => run cs (step c s).1
  end.

(** History variable: the attributes the terminal had at the last
    successful entry into raw mode, for as long as no successful restore
    has used them up.  It is computed from the calls, their replies and the
    terminal alone, never from [original_termios]. *)
Definition entry_after (c : call) (s : state) (e : option termios) : option termios :=
  match c, (step c s).2 with
  | enable_raw_mode _ _, unit_reply (lean_io_result_mk_ok _) =>
      if raw_mode_enabled s =? 0 then Some (tty s) else e
  | disable_raw_mode _, unit_reply (lean_io_result_mk_ok _) =>
      if raw_mode_enabled s =? 0 then e else None
  | _, _ => e
  end.

Fixpoint last_entry (cs : list call) (s : state) (e : option termios) : option termios :=
  match cs with
  | [] => e
  | c :: cs => last_entry cs (step c s).1 (entry_after c s e)
  end.

(** A state is reachable when some sequence of calls leads to it from the
    start of the program, on some terminal. *)
Definition reachable (s : state) : Prop :=
  exists (inherited : termios) (cs : list call), s = run cs (initial inherited).

(** ** The session invariant *)

(** What ties the flag, the saved attributes, the terminal and the history
    together after any number of calls. *)
Definition session_inv (s : state) (e : option termios) : Prop :=
  (raw_mode_enabled s = 0 /\ e = None) \/
  (raw_mode_enabled s = 1 /\ e = Some (original_termios s) /\
   tty s = raw (original_termios s)).

(** ** Ranges *)

Definition tcflag_ok (z : Z) : Prop := 0 <= z < 2 ^ tcflag_bits.

(** A [struct termios] as the C type holds it. *)
Definition termios_ok (t : termios) : Prop :=
  tcflag_ok (c_iflag t) /\ tcflag_ok (c_oflag t) /\
  tcflag_ok (c_cflag t) /\ tcflag_ok (c_lflag t) /\
  length (c_cc t) = NCCS.

(** What the properties below need of the header: [CS8] fits a [tcflag_t]
    and [VMIN], [VTIME] index into [c_cc]. *)
Definition header_ok : Prop :=
  0 <= tcflag_bits /\ tcflag_ok CS8 /\ (VMIN < NCCS)%nat /\ (VTIME < NCCS)%nat.

(** A [struct winsize] as the C type holds it: two [unsigned short]. *)
Definition winsize_ok (ws : winsize) : Prop :=
  0 <= ws_row ws < 65536 /\ 0 <= ws_col ws < 65536.

End Bridge.

(** ** Sample terminals *)

(** A Linux terminal in its usual line-editing ("cooked") mode, as
    [stty -a] shows one: ICRNL IXON IUTF8, OPOST ONLCR, CS8 CREAD at 38400
    baud, ISIG ICANON IEXTEN and the echo flags, VMIN 1 and VTIME 0. *)
Definition cooked : termios :=
  Termios 17664 5 191 35387
    [3; 28; 127; 21; 4; 0; 1; 0; 17; 19; 26; 0; 18; 15; 23; 22;
     0; 0; 0; 0; 0; 0; 0; 0; 0; 0; 0; 0; 0; 0; 0; 0]
    [0; 15; 15].

(** The same terminal once a program has put it into raw mode. *)
Definition uncooked : termios :=
  Termios 16384 5 191 2608
    [3; 28; 127; 21; 4; 0; 0; 0; 17; 19; 26; 0; 18; 15; 23; 22;
     0; 0; 0; 0; 0; 0; 0; 0; 0; 0; 0; 0; 0; 0; 0; 0]
    [0; 15; 15].

(** ** Further notions on sequences of calls *)

Section History.

Context {hdr : termios_h}.

(** The calls that can touch the session: the two mode changes. *)
Definition changes_mode (c : call) : bool :=
  match c with
  | enable_raw_mode _ _ | disable_raw_mode _ => true
  | get_terminal_size _ | read_byte _ => false
  end.

(** The replies that answer them. *)
Definition mode_reply (r : reply) : bool :=
  match r with
  | unit_reply _ => true
  | size_reply _ | byte_reply _ => false
  end.

(** The replies a sequence of calls gets, in order. *)
Fixpoint replies (cs : list call) (s : state) : list reply :=
  match cs with
  | [] => []
  | c :: cs => (step c s).2 :: replies cs (step c s).1
  end.

(** Where the terminal stands with respect to the attributes the program
    inherited. *)
Definition terminal_inv (inherited : termios) (s : state) : Prop :=
  (raw_mode_enabled s = 0 /\ tty s = inherited) \/
  (raw_mode_enabled s = 1 /\ original_termios s = inherited /\
   tty s = raw inherited).

(** Two states that differ at most in a snapshot that is not in use. *)
Definition same_but_stale (s1 s2 : state) : Prop :=
  s1 = s2 \/
  (raw_mode_enabled s1 = 0 /\ raw_mode_enabled s2 = 0 /\ tty s1 = tty s2).

End History.

(** * Properties *)

Section Properties.

Context {hdr : termios_h}.

Local Abbreviation ok := (lean_io_result_mk_ok tt).

(** *** Bit-level facts about the flag updates *)

Lemma tcflag_high_bits x i :
  0 <= tcflag_bits -> tcflag_ok x -> tcflag_bits <= i -> Z.testbit x i = false.
Proof.
  intros Hw Hx Hi.
  rewrite <- (Z.mod_small x (2 ^ tcflag_bits)) by exact Hx.
  apply Z.mod_pow2_bits_high. lia.
Qed.

Lemma testbit_clear x m i :
  0 <= tcflag_bits -> tcflag_ok x ->
  Z.testbit (Z.land x (to_tcflag (Z.lnot m))) i
  = Z.testbit x i && negb (Z.testbit m i).
Proof.
  intros Hw Hx. rewrite Z.land_spec.
  destruct (Z_lt_dec i 0) as [Hneg|Hpos].
  - now rewrite !Z.testbit_neg_r by lia.
  - destruct (Z_lt_dec i tcflag_bits) as [Hlo|Hhi].
    + unfold to_tcflag. rewrite Z.mod_pow2_bits_low by lia.
      now rewrite Z.lnot_spec by lia.
    + rewrite (tcflag_high_bits x i) by (auto; lia). reflexivity.
Qed.

Lemma testbit_set x m i :
  0 <= tcflag_bits -> tcflag_ok m ->
  Z.testbit (Z.lor x (to_tcflag m)) i = Z.testbit x i || Z.testbit m i.
Proof.
  intros Hw Hm. rewrite Z.lor_spec. unfold to_tcflag.
  now rewrite Z.mod_small by exact Hm.
Qed.

(** *** Case analysis of the two mode-changing calls *)

Lemma enable_when_active g a s :
  raw_mode_enabled s <> 0 -> parlance_repl_enable_raw_mode g a s = (s, ok).
Proof.
  intros Hact. unfold parlance_repl_enable_raw_mode.
  destruct (Z.eqb_spec (raw_mode_enabled s) 0); [contradiction|reflexivity].
Qed.

Lemma enable_when_inactive g a s :
  raw_mode_enabled s = 0 ->
  parlance_repl_enable_raw_mode g a s =
    match g, a with
    | tcget_fails buf, _ =>
        (State buf 0 (tty s),
         lean_io_result_mk_error "Failed to get terminal attributes")
    | tcget_ok, tcset_fails =>
        (State (tty s) 0 (tty s),
         lean_io_result_mk_error "Failed to set terminal to raw mode")
    | tcget_ok, tcset_ok =>
        (State (tty s) 1 (raw (tty s)), ok)
    end.
Proof.
  intros Hin. unfold parlance_repl_enable_raw_mode. rewrite Hin.
  destruct g, a; cbn;
    unfold set_tty, set_original_termios, set_raw_mode_enabled; cbn;
    rewrite ?Hin; reflexivity.
Qed.

Lemma disable_when_inactive a s :
  raw_mode_enabled s = 0 -> parlance_repl_disable_raw_mode a s = (s, ok).
Proof.
  intros Hin. unfold parlance_repl_disable_raw_mode. now rewrite Hin.
Qed.

Lemma disable_when_active a s :
  raw_mode_enabled s <> 0 ->
  parlance_repl_disable_raw_mode a s =
    match a with
    | tcset_fails =>
        (s, lean_io_result_mk_error "Failed to restore terminal settings")
    | tcset_ok =>
        (State (original_termios s) 0 (original_termios s), ok)
    end.
Proof.
  intros Hact. unfold parlance_repl_disable_raw_mode.
  destruct (Z.eqb_spec (raw_mode_enabled s) 0); [contradiction|].
  destruct a, s; reflexivity.
Qed.

Lemma enable_ok_active g a s s' :
  parlance_repl_enable_raw_mode g a s = (s', ok) -> raw_mode_enabled s' <> 0.
Proof.
  destruct (Z.eq_dec (raw_mode_enabled s) 0) as [Hin|Hact].
  - rewrite (enable_when_inactive g a s Hin).
    destruct g, a; intros [= <-]; cbn; lia.
  - rewrite (enable_when_active g a s Hact). now intros [= <-].
Qed.

Lemma disable_ok_inactive a s s' :
  parlance_repl_disable_raw_mode a s = (s', ok) -> raw_mode_enabled s' = 0.
Proof.
  destruct (Z.eq_dec (raw_mode_enabled s) 0) as [Hin|Hact].
  - rewrite (disable_when_inactive a s Hin). now intros [= <-].
  - rewrite (disable_when_active a s Hact).
    destruct a; intros [= <-]; reflexivity.
Qed.

(** *** The session invariant *)

Lemma session_inv_initial inherited : session_inv (initial inherited) None.
Proof. left. split; reflexivity. Qed.

Lemma session_inv_step c s e :
  session_inv s e -> session_inv (step c s).1 (entry_after c s e).
Proof.
  intros Hinv. unfold entry_after.
  destruct c as [g a|a|q|r]; cbn [step].
  - destruct Hinv as [[Hin He]|(Hact & He & Htty)].
    + rewrite (enable_when_inactive g a s Hin), Hin.
      destruct g, a; cbn; [right|left|left|left]; auto.
    + rewrite (enable_when_active g a s) by lia. cbn.
      rewrite Hact. cbn. right. auto.
  - destruct Hinv as [[Hin He]|(Hact & He & Htty)].
    + rewrite (disable_when_inactive a s Hin), Hin. cbn. left. auto.
    + rewrite (disable_when_active a s) by lia. rewrite Hact.
      destruct a; cbn; [left|right]; auto.
  - exact Hinv.
  - unfold parlance_repl_read_byte.
    destruct (read_ret r =? 1); exact Hinv.
Qed.

Lemma session_inv_run cs : forall s e,
  session_inv s e -> session_inv (run cs s) (last_entry cs s e).
Proof.
  induction cs as [|c cs IH]; intros s e Hinv; cbn [run last_entry].
  - exact Hinv.
  - apply IH, session_inv_step, Hinv.
Qed.

(** *** The raw-mode modification, and the terminal against the
    attributes inherited *)

Lemma raw_fields t :
  raw t =
  Termios
    (Z.land (c_iflag t)
       (to_tcflag
          (Z.lnot (Z.lor (Z.lor (Z.lor (Z.lor BRKINT ICRNL) INPCK) ISTRIP) IXON))))
    (c_oflag t)
    (Z.lor (c_cflag t) (to_tcflag CS8))
    (Z.land (c_lflag t)
       (to_tcflag (Z.lnot (Z.lor (Z.lor (Z.lor ECHO ICANON) IEXTEN) ISIG))))
    (<[VTIME := 0]> (<[VMIN := 0]> (c_cc t)))
    (c_other t).
Proof. reflexivity. Qed.

Lemma raw_image_fixed t u : t = raw u -> raw t = t.
Proof.
  intros ->. rewrite (raw_fields (raw u)), (raw_fields u).
  cbn [c_iflag c_oflag c_cflag c_lflag c_cc c_other]. f_equal.
  - now rewrite <- Z.land_assoc, Z.land_diag.
  - now rewrite <- Z.lor_assoc, Z.lor_diag.
  - now rewrite <- Z.land_assoc, Z.land_diag.
  - destruct (decide (VMIN = VTIME)) as [Heq|Hne].
    + rewrite Heq. now rewrite !list_insert_insert_eq.
    + rewrite (list_insert_insert_ne _ VMIN VTIME) by exact Hne.
      now rewrite !list_insert_insert_eq.
Qed.

Lemma terminal_inv_step inherited c s :
  terminal_inv inherited s -> terminal_inv inherited (step c s).1.
Proof.
  intros Hinv.
  destruct c as [g a|a|q|r]; cbn [step].
  - destruct Hinv as [[Hin Htty]|(Hact & Hsaved & Htty)].
    + rewrite (enable_when_inactive g a s Hin).
      destruct g, a; cbn; [right|left|left|left]; rewrite ?Htty; auto.
    + rewrite (enable_when_active g a s) by lia. cbn. right. auto.
  - destruct Hinv as [[Hin Htty]|(Hact & Hsaved & Htty)].
    + rewrite (disable_when_inactive a s Hin). cbn. left. auto.
    + rewrite (disable_when_active a s) by lia.
      destruct a; cbn; [left|right]; auto.
  - exact Hinv.
  - unfold parlance_repl_read_byte.
    destruct (read_ret r =? 1); exact Hinv.
Qed.

Lemma terminal_inv_run inherited cs : forall s,
  terminal_inv inherited s -> terminal_inv inherited (run cs s).
Proof.
  induction cs as [|c cs IH]; intros s Hinv; cbn [run].
  - exact Hinv.
  - apply IH, terminal_inv_step, Hinv.
Qed.

Lemma terminal_inv_initial inherited :
  terminal_inv inherited (initial inherited).
Proof. left. split; reflexivity. Qed.

(** ** Entering and leaving raw mode *)

(** C1 (as amended).  When the session is inactive at the call, a
    successful [enable_raw_mode] followed by a successful
    [disable_raw_mode] leaves the terminal with exactly the attributes it
    had before the first call.  When the session is already active the
    first call changes nothing and the second installs the saved
    attributes instead. *)
Theorem enable_disable_round_trip g a a' s s1 s2 :
  parlance_repl_enable_raw_mode g a s = (s1, ok) ->
  parlance_repl_disable_raw_mode a' s1 = (s2, ok) ->
  (raw_mode_enabled s = 0 -> tty s2 = tty s) /\
  (raw_mode_enabled s <> 0 -> tty s2 = original_termios s).
Proof.
  intros Hen Hdis.
  pose proof (enable_ok_active _ _ _ _ Hen) as Hact1.
  rewrite (disable_when_active a' s1 Hact1) in Hdis.
  destruct a'; [|discriminate]. injection Hdis as <-. cbn.
  split; intros Hs.
  - rewrite (enable_when_inactive g a s Hs) in Hen.
    destruct g, a; try discriminate. now injection Hen as <-.
  - rewrite (enable_when_active g a s Hs) in Hen. now injection Hen as <-.
Qed.

(** C2.  Both mode-changing calls are idempotent.  [enable_raw_mode] on an
    active session and [disable_raw_mode] on an inactive one return
    success at once, whatever the system calls would have answered, and
    leave the saved attributes, the flag and the terminal as they were; so
    a second call straight after a successful first one changes nothing.
    More generally a call repeated under the same answers of the system
    ends in the same state, with the same result, as the call made once. *)
Theorem mode_calls_idempotent g a g' a' s :
  (raw_mode_enabled s <> 0 -> parlance_repl_enable_raw_mode g a s = (s, ok)) /\
  (raw_mode_enabled s = 0 -> parlance_repl_disable_raw_mode a s = (s, ok)) /\
  (forall s1, parlance_repl_enable_raw_mode g a s = (s1, ok) ->
              parlance_repl_enable_raw_mode g' a' s1 = (s1, ok)) /\
  (forall s1, parlance_repl_disable_raw_mode a s = (s1, ok) ->
              parlance_repl_disable_raw_mode a' s1 = (s1, ok)) /\
  parlance_repl_enable_raw_mode g a (parlance_repl_enable_raw_mode g a s).1
    = parlance_repl_enable_raw_mode g a s /\
  parlance_repl_disable_raw_mode a (parlance_repl_disable_raw_mode a s).1
    = parlance_repl_disable_raw_mode a s.
Proof.
  split; [apply enable_when_active|].
  split; [apply disable_when_inactive|].
  split; [|split; [|split]].
  - intros s1 Hen. apply enable_when_active. eapply enable_ok_active, Hen.
  - intros s1 Hdis. apply disable_when_inactive.
    eapply disable_ok_inactive, Hdis.
  - destruct (Z.eq_dec (raw_mode_enabled s) 0) as [Hin|Hact].
    + rewrite (enable_when_inactive g a s Hin).
      destruct g, a; cbn [fst];
        (rewrite enable_when_inactive by reflexivity)
        || (rewrite enable_when_active by (cbn; lia));
        reflexivity.
    + rewrite (enable_when_active g a s Hact). cbn [fst].
      apply enable_when_active, Hact.
  - destruct (Z.eq_dec (raw_mode_enabled s) 0) as [Hin|Hact].
    + rewrite (disable_when_inactive a s Hin). cbn [fst].
      apply disable_when_inactive, Hin.
    + rewrite (disable_when_active a s Hact).
      destruct a; cbn [fst].
      * now rewrite disable_when_inactive.
      * apply disable_when_active, Hact.
Qed.

(** C3 (as amended).  After any sequence of the four calls from the start
    of the program, on a terminal whose inherited attributes are not
    already their own raw-mode modification: [raw_mode_enabled] is set if
    and only if the terminal's live attributes are the raw-mode
    modification of [original_termios].  On every terminal: whenever the
    flag is set, the live attributes are the raw-mode modification of
    [original_termios], and [original_termios] holds the attributes
    captured at the last successful entry, which no restore has used up
    since; the flag is set exactly when such an entry is outstanding, and
    is never anything but 0 or 1; whenever the flag is clear the terminal
    has the attributes it was inherited with, so that the live attributes
    can be the raw-mode modification of [original_termios] under a clear
    flag only on a terminal inherited already raw. *)
Theorem session_invariant inherited cs :
  let s := run cs (initial inherited) in
  let e := last_entry cs (initial inherited) None in
  (raw_mode_enabled s <> 0 ->
     tty s = raw (original_termios s) /\ e = Some (original_termios s)) /\
  (raw_mode_enabled s <> 0 <-> e <> None) /\
  (raw_mode_enabled s = 0 \/ raw_mode_enabled s = 1) /\
  (raw inherited <> inherited ->
     (raw_mode_enabled s <> 0 <-> tty s = raw (original_termios s))) /\
  (raw_mode_enabled s = 0 ->
     tty s = inherited /\
     (tty s = raw (original_termios s) -> raw inherited = inherited)).
Proof.
  cbv zeta.
  pose proof (terminal_inv_run inherited cs _ (terminal_inv_initial inherited))
    as Hterm.
  assert (Hclear : raw_mode_enabled (run cs (initial inherited)) = 0 ->
            tty (run cs (initial inherited)) = inherited /\
            (tty (run cs (initial inherited))
               = raw (original_termios (run cs (initial inherited))) ->
             raw inherited = inherited)).
  { intros Hin. destruct Hterm as [[_ Htty]|(Hact & _)]; [|lia].
    split; [exact Htty|]. rewrite Htty. intros Hraw.
    exact (raw_image_fixed _ _ Hraw). }
  destruct (session_inv_run cs _ _ (session_inv_initial inherited))
    as [[Hin He]|(Hact & He & Htty)].
  - split; [|split; [|split; [|split]]].
    + intros Hne. contradiction.
    + rewrite Hin, He. tauto.
    + left. exact Hin.
    + intros Hfresh. split; [intros Hne; contradiction|].
      intros Hraw. destruct (Hclear Hin) as [_ Hfixed].
      elim Hfresh. exact (Hfixed Hraw).
    + exact Hclear.
  - split; [|split; [|split; [|split]]].
    + intros _. split; assumption.
    + rewrite Hact, He. split; intros _; [discriminate|lia].
    + right. exact Hact.
    + intros _. split; [intros _; exact Htty|]. intros _. rewrite Hact. lia.
    + exact Hclear.
Qed.

(** C4.  On a successful entry into raw mode the saved attributes are the
    ones the terminal had, and the attributes installed differ from them
    in this and nothing else: in the input flags BRKINT, ICRNL, INPCK,
    ISTRIP and IXON are clear; in the local flags ECHO, ICANON, IEXTEN and
    ISIG are clear; in the control flags CS8 is set; the output flags
    (OPOST among them) are as saved; [c_cc[VMIN]] and [c_cc[VTIME]] are 0
    and every other control character is as saved. *)
Theorem enable_installs_raw g a s s' :
  header_ok -> termios_ok (tty s) ->
  raw_mode_enabled s = 0 ->
  parlance_repl_enable_raw_mode g a s = (s', ok) ->
  let saved := original_termios s' in
  let live := tty s' in
  saved = tty s /\
  (forall i, Z.testbit (c_iflag live) i =
             Z.testbit (c_iflag saved) i &&
             negb (Z.testbit BRKINT i || Z.testbit ICRNL i || Z.testbit INPCK i
                   || Z.testbit ISTRIP i || Z.testbit IXON i)) /\
  (forall i, Z.testbit (c_lflag live) i =
             Z.testbit (c_lflag saved) i &&
             negb (Z.testbit ECHO i || Z.testbit ICANON i
                   || Z.testbit IEXTEN i || Z.testbit ISIG i)) /\
  (forall i, Z.testbit (c_cflag live) i =
             Z.testbit (c_cflag saved) i || Z.testbit CS8 i) /\
  c_oflag live = c_oflag saved /\
  c_cc live !! VMIN = Some 0 /\
  c_cc live !! VTIME = Some 0 /\
  (forall j : nat, j <> VMIN -> j <> VTIME -> c_cc live !! j = c_cc saved !! j) /\
  length (c_cc live) = length (c_cc saved) /\
  c_other live = c_other saved.
Proof.
  intros (Hw & Hcs8 & Hvmin & Hvtime) (Hi & Ho & Hc & Hl & Hcc) Hin Hen.
  rewrite (enable_when_inactive g a s Hin) in Hen.
  destruct g, a; try discriminate. injection Hen as <-. cbn.
  split; [reflexivity|].
  split; [|split; [|split; [|split; [|split; [|split; [|split; [|split]]]]]]].
  - intros i. rewrite testbit_clear by assumption.
    rewrite !Z.lor_spec. reflexivity.
  - intros i. rewrite testbit_clear by assumption.
    rewrite !Z.lor_spec. reflexivity.
  - intros i. apply testbit_set; assumption.
  - reflexivity.
  - destruct (decide (VMIN = VTIME)) as [Heq|Hne].
    + rewrite Heq. apply list_lookup_insert_eq.
      rewrite length_insert, Hcc. exact Hvtime.
    + rewrite list_lookup_insert_ne by auto.
      apply list_lookup_insert_eq. rewrite Hcc. exact Hvmin.
  - apply list_lookup_insert_eq. rewrite length_insert, Hcc. exact Hvtime.
  - intros j Hj1 Hj2. now rewrite !list_lookup_insert_ne by auto.
  - now rewrite !length_insert.
  - reflexivity.
Qed.

(** ** Window size and input *)

(** C5 (as amended).  [get_terminal_size] never returns an error.  It
    returns (80, 24) whenever the query fails or reports zero columns and
    the reported (columns, rows) otherwise.  The width is always positive;
    the height is positive unless the query succeeds with some columns and
    zero rows, and then the height returned is 0. *)
Theorem get_size_total q s :
  winsize_ok (ioctl_ws q) ->
  exists w h,
    (parlance_repl_get_size q s).2 = lean_io_result_mk_ok (w, h) /\
    (ioctl_ret q = -1 \/ ws_col (ioctl_ws q) = 0 -> (w, h) = (80, 24)) /\
    (ioctl_ret q <> -1 -> ws_col (ioctl_ws q) <> 0 ->
       (w, h) = (ws_col (ioctl_ws q), ws_row (ioctl_ws q))) /\
    0 < w /\
    (0 < h <->
       ioctl_ret q = -1 \/ ws_col (ioctl_ws q) = 0 \/ ws_row (ioctl_ws q) <> 0).
Proof.
  intros [Hrow Hcol]. unfold parlance_repl_get_size. cbn [snd].
  destruct (Z.eqb_spec (ioctl_ret q) (-1)) as [Hret|Hret]; cbn [orb].
  - exists 80, 24. repeat split; intros; auto; try lia; congruence.
  - destruct (Z.eqb_spec (ws_col (ioctl_ws q)) 0) as [Hzero|Hzero].
    + exists 80, 24. repeat split; intros; auto; try lia; congruence.
    + exists (ws_col (ioctl_ws q)), (ws_row (ioctl_ws q)).
      repeat split; intros; auto; try lia; tauto.
Qed.

(** C6.  [read_byte] never returns an error.  It returns [Some b] exactly
    when the read returned 1 and left [b] in the buffer; it returns [None]
    when the read returned 0, when it failed with -1 whatever the error,
    and in general whenever it returned anything but 1. *)
Theorem read_byte_total r s :
  exists v,
    (parlance_repl_read_byte r s).2 = lean_io_result_mk_ok v /\
    (forall b, v = Some b <-> read_ret r = 1 /\ read_c r = b) /\
    (read_ret r = 0 -> v = None) /\
    (read_ret r = -1 -> v = None) /\
    (read_ret r <> 1 -> v = None).
Proof.
  unfold parlance_repl_read_byte.
  destruct (Z.eqb_spec (read_ret r) 1) as [Hone|Hnot]; cbn [snd].
  - exists (Some (read_c r)). split; [reflexivity|].
    split; [|lia]. intros b. split.
    + intros [= <-]. auto.
    + intros [_ <-]. reflexivity.
  - exists None. split; [reflexivity|].
    split; [|auto]. intros b. split; [discriminate|]. intros [? _]. lia.
Qed.

(** ** Failures *)

(** C7.  When [enable_raw_mode] is called on an inactive session and
    [tcgetattr] fails, the call returns the error "Failed to get terminal
    attributes", the session stays inactive and the terminal keeps its
    attributes.  [original_termios] holds whatever the failed call left in
    it; if that is what it held before, the whole state is unchanged. *)
Theorem enable_get_failure buf a s :
  raw_mode_enabled s = 0 ->
  let (s', r) := parlance_repl_enable_raw_mode (tcget_fails buf) a s in
  r = lean_io_result_mk_error "Failed to get terminal attributes" /\
  raw_mode_enabled s' = 0 /\
  tty s' = tty s /\
  original_termios s' = buf /\
  (buf = original_termios s -> s' = s).
Proof.
  intros Hin. rewrite (enable_when_inactive _ a s Hin).
  repeat split. intros ->. destruct s; cbn in *. now rewrite Hin.
Qed.

(** C8.  When [enable_raw_mode] is called on an inactive session,
    [tcgetattr] succeeds and [tcsetattr] fails, the call returns the error
    "Failed to set terminal to raw mode", the session is not marked active,
    the terminal keeps its attributes and [original_termios] holds them.
    A second attempt on which both system calls succeed enters raw mode
    from those same attributes. *)
Theorem enable_set_failure s :
  raw_mode_enabled s = 0 ->
  let (s', r) := parlance_repl_enable_raw_mode tcget_ok tcset_fails s in
  r = lean_io_result_mk_error "Failed to set terminal to raw mode" /\
  raw_mode_enabled s' = 0 /\
  original_termios s' = tty s /\
  tty s' = tty s /\
  parlance_repl_enable_raw_mode tcget_ok tcset_ok s' =
    (State (tty s) 1 (raw (tty s)), ok).
Proof.
  intros Hin. rewrite (enable_when_inactive _ _ s Hin).
  repeat split.
Qed.

(** C9.  When [disable_raw_mode] is called on an active session and
    [tcsetattr] fails, the call returns the error "Failed to restore
    terminal settings" and the state is untouched: the session is still
    active and [original_termios] is as it was.  A second attempt on which
    [tcsetattr] succeeds installs the saved attributes and ends the
    session. *)
Theorem disable_set_failure s :
  raw_mode_enabled s <> 0 ->
  let (s', r) := parlance_repl_disable_raw_mode tcset_fails s in
  r = lean_io_result_mk_error "Failed to restore terminal settings" /\
  s' = s /\
  raw_mode_enabled s' <> 0 /\
  original_termios s' = original_termios s /\
  parlance_repl_disable_raw_mode tcset_ok s' =
    (State (original_termios s) 0 (original_termios s), ok).
Proof.
  intros Hact. rewrite (disable_when_active _ s Hact).
  repeat split; auto. now rewrite disable_when_active.
Qed.

(** C10.  [read_byte] and [get_terminal_size] leave the state alone on
    every call: whatever the flag says and whatever the system call
    answers, [raw_mode_enabled] and [original_termios] (and the terminal's
    attributes) are the same after the call as before. *)
Theorem read_and_size_frame r q s :
  let s1 := (parlance_repl_read_byte r s).1 in
  let s2 := (parlance_repl_get_size q s).1 in
  (raw_mode_enabled s1 = raw_mode_enabled s /\
   original_termios s1 = original_termios s /\ s1 = s) /\
  (raw_mode_enabled s2 = raw_mode_enabled s /\
   original_termios s2 = original_termios s /\ s2 = s).
Proof.
  unfold parlance_repl_read_byte, parlance_repl_get_size.
  destruct (read_ret r =? 1); cbn; auto 10.
Qed.

End Properties.

(** * Further properties of the bridge *)

Section Further.

Context {hdr : termios_h}.

Local Abbreviation ok := (lean_io_result_mk_ok tt).

(** *** Helpers *)

Lemma tcflag_ok_of_bits x :
  0 <= tcflag_bits -> 0 <= x ->
  (forall i, tcflag_bits <= i -> Z.testbit x i = false) ->
  tcflag_ok x.
Proof.
  intros Hw Hx Hhigh.
  assert (Hmod : x mod 2 ^ tcflag_bits = x).
  { apply Z.bits_inj'. intros i Hi.
    destruct (Z_lt_dec i tcflag_bits) as [Hlo|Hhi].
    - apply Z.mod_pow2_bits_low. lia.
    - rewrite Z.mod_pow2_bits_high by lia. symmetry. apply Hhigh. lia. }
  unfold tcflag_ok. rewrite <- Hmod.
  apply Z.mod_pos_bound, Z.pow_pos_nonneg; lia.
Qed.

Lemma to_tcflag_ok z : 0 <= tcflag_bits -> tcflag_ok (to_tcflag z).
Proof.
  intros Hw. apply Z.mod_pos_bound, Z.pow_pos_nonneg; lia.
Qed.

Lemma tcflag_ok_land x y :
  0 <= tcflag_bits -> tcflag_ok x -> tcflag_ok (Z.land x y).
Proof.
  intros Hw Hx. apply tcflag_ok_of_bits; [exact Hw| |].
  - apply Z.land_nonneg. left. apply Hx.
  - intros i Hi. rewrite Z.land_spec, (tcflag_high_bits x i) by auto.
    reflexivity.
Qed.

Lemma tcflag_ok_lor x y :
  0 <= tcflag_bits -> tcflag_ok x -> tcflag_ok y -> tcflag_ok (Z.lor x y).
Proof.
  intros Hw Hx Hy. apply tcflag_ok_of_bits; [exact Hw| |].
  - apply Z.lor_nonneg. split; [apply Hx|apply Hy].
  - intros i Hi.
    rewrite Z.lor_spec, (tcflag_high_bits x i), (tcflag_high_bits y i) by auto.
    reflexivity.
Qed.

Lemma run_app cs1 : forall cs2 s, run (cs1 ++ cs2) s = run cs2 (run cs1 s).
Proof.
  induction cs1 as [|c cs1 IH]; intros cs2 s; cbn; [reflexivity|apply IH].
Qed.

Lemma step_query c s : changes_mode c = false -> (step c s).1 = s.
Proof.
  destruct c as [g a|a|q|r]; try discriminate; intros _; cbn [step].
  - reflexivity.
  - unfold parlance_repl_read_byte. destruct (read_ret r =? 1); reflexivity.
Qed.

Lemma step_reply_kind c s : mode_reply (step c s).2 = changes_mode c.
Proof.
  destruct c as [g a|a|q|r]; cbn [step changes_mode].
  - destruct (parlance_repl_enable_raw_mode g a s); reflexivity.
  - destruct (parlance_repl_disable_raw_mode a s); reflexivity.
  - reflexivity.
  - destruct (parlance_repl_read_byte r s); reflexivity.
Qed.

Lemma same_but_stale_step c s1 s2 :
  same_but_stale s1 s2 ->
  (step c s1).2 = (step c s2).2 /\
  same_but_stale (step c s1).1 (step c s2).1.
Proof.
  intros [->|(H1 & H2 & Htty)].
  - split; [reflexivity|left; reflexivity].
  - destruct c as [g a|a|q|r]; cbn [step].
    + rewrite (enable_when_inactive g a s1 H1), (enable_when_inactive g a s2 H2).
      rewrite Htty. destruct g, a; cbn; split; auto; left; reflexivity.
    + rewrite (disable_when_inactive a s1 H1), (disable_when_inactive a s2 H2).
      cbn. split; [reflexivity|]. right. auto.
    + cbn. split; [reflexivity|]. right. auto.
    + unfold parlance_repl_read_byte.
      destruct (read_ret r =? 1); cbn; (split; [reflexivity|]); right; auto.
Qed.

(** ** The raw-mode modification *)

(** X1.  Applying the raw-mode modification to attributes that already
    went through it changes nothing. *)
Theorem raw_idempotent t : raw (raw t) = raw t.
Proof.
  rewrite (raw_fields (raw t)), (raw_fields t).
  cbn [c_iflag c_oflag c_cflag c_lflag c_cc c_other]. f_equal.
  - now rewrite <- Z.land_assoc, Z.land_diag.
  - now rewrite <- Z.lor_assoc, Z.lor_diag.
  - now rewrite <- Z.land_assoc, Z.land_diag.
  - destruct (decide (VMIN = VTIME)) as [Heq|Hne].
    + rewrite Heq. now rewrite !list_insert_insert_eq.
    + rewrite (list_insert_insert_ne _ VMIN VTIME) by exact Hne.
      now rewrite !list_insert_insert_eq.
Qed.

(** X2.  The raw-mode modification of a well-formed [struct termios] is
    well formed: every flag word still fits a [tcflag_t] and [c_cc] keeps
    its [NCCS] entries. *)
Theorem raw_in_range t :
  header_ok -> termios_ok t -> termios_ok (raw t).
Proof.
  intros (Hw & Hcs8 & _ & _) (Hi & Ho & Hc & Hl & Hcc).
  unfold termios_ok. rewrite raw_fields.
  cbn [c_iflag c_oflag c_cflag c_lflag c_cc c_other].
  split; [apply tcflag_ok_land; assumption|].
  split; [exact Ho|].
  split; [apply tcflag_ok_lor; auto using to_tcflag_ok|].
  split; [apply tcflag_ok_land; assumption|].
  now rewrite !length_insert.
Qed.

(** ** The terminal over a whole run *)

(** X3.  After any sequence of calls from program start, the terminal has
    the attributes the program inherited whenever the flag is clear, and
    their raw-mode modification, with the inherited ones saved, whenever
    the flag is set.  No failure of a system call leaves it anywhere
    else. *)
Theorem terminal_tracks_inherited inherited cs :
  (raw_mode_enabled (run cs (initial inherited)) = 0 ->
     tty (run cs (initial inherited)) = inherited) /\
  (raw_mode_enabled (run cs (initial inherited)) <> 0 ->
     original_termios (run cs (initial inherited)) = inherited /\
     tty (run cs (initial inherited)) = raw inherited).
Proof.
  assert (Hinit : terminal_inv inherited (initial inherited))
    by (left; split; reflexivity).
  destruct (terminal_inv_run inherited cs _ Hinit)
    as [[Hin Htty]|(Hact & Hsaved & Htty)].
  - split; [auto|]. intros Hne. contradiction.
  - split; [|auto]. rewrite Hact. discriminate.
Qed.

(** X4.  Whatever went before, and however many calls failed, one
    [disable_raw_mode] on which [tcsetattr] succeeds leaves the session
    inactive and the terminal with the attributes the program
    inherited. *)
Theorem restore_always_possible inherited cs :
  raw_mode_enabled
    (run (cs ++ [disable_raw_mode tcset_ok]) (initial inherited)) = 0 /\
  tty (run (cs ++ [disable_raw_mode tcset_ok]) (initial inherited))
    = inherited.
Proof.
  assert (Hinit : terminal_inv inherited (initial inherited))
    by (left; split; reflexivity).
  rewrite run_app. cbn [run step].
  destruct (terminal_inv_run inherited cs _ Hinit)
    as [[Hin Htty]|(Hact & Hsaved & Htty)].
  - rewrite (disable_when_inactive _ _ Hin). cbn. auto.
  - rewrite disable_when_active by lia. cbn. auto.
Qed.

(** ** What a result tells the caller *)

(** X5.  The result of a mode change reports the session: after
    [enable_raw_mode] the flag is set exactly when the call returned
    success, and after [disable_raw_mode] it is clear exactly when the
    call returned success. *)
Theorem result_reports_session g a s :
  ((parlance_repl_enable_raw_mode g a s).2 = ok <->
   raw_mode_enabled (parlance_repl_enable_raw_mode g a s).1 <> 0) /\
  ((parlance_repl_disable_raw_mode a s).2 = ok <->
   raw_mode_enabled (parlance_repl_disable_raw_mode a s).1 = 0).
Proof.
  destruct (Z.eq_dec (raw_mode_enabled s) 0) as [Hin|Hact].
  - rewrite (enable_when_inactive g a s Hin), (disable_when_inactive a s Hin).
    split; [|cbn; tauto].
    destruct g, a; cbn; split; intros Hyp; try discriminate;
      try reflexivity; try lia.
  - rewrite (enable_when_active g a s Hact), (disable_when_active a s Hact).
    split; [cbn; tauto|].
    destruct a; cbn; split; intros Hyp; try discriminate;
      try reflexivity; try contradiction.
Qed.

(** X6.  An error names the system call that failed.  [enable_raw_mode]
    fails only on an inactive session, with "Failed to get terminal
    attributes" exactly when [tcgetattr] failed and "Failed to set
    terminal to raw mode" exactly when [tcgetattr] succeeded and
    [tcsetattr] failed; [disable_raw_mode] fails exactly on an active
    session whose [tcsetattr] failed, with "Failed to restore terminal
    settings". *)
Theorem error_names_failed_call g a s msg :
  ((parlance_repl_enable_raw_mode g a s).2 = lean_io_result_mk_error msg <->
     raw_mode_enabled s = 0 /\
     ((msg = "Failed to get terminal attributes" /\ g <> tcget_ok) \/
      (msg = "Failed to set terminal to raw mode" /\
       g = tcget_ok /\ a = tcset_fails))) /\
  ((parlance_repl_disable_raw_mode a s).2 = lean_io_result_mk_error msg <->
     raw_mode_enabled s <> 0 /\
     msg = "Failed to restore terminal settings" /\ a = tcset_fails).
Proof.
  destruct (Z.eq_dec (raw_mode_enabled s) 0) as [Hin|Hact].
  - rewrite (enable_when_inactive g a s Hin), (disable_when_inactive a s Hin).
    split; split.
    + destruct g, a; cbn; intros [= <-]; split; auto.
      all: left; split; [reflexivity|discriminate].
    + intros (_ & [(-> & Hg)|(-> & -> & ->)]); [|reflexivity].
      destruct g; [contradiction|reflexivity].
    + discriminate.
    + intros (Hne & _). contradiction.
  - rewrite (enable_when_active g a s Hact), (disable_when_active a s Hact).
    split; split.
    + discriminate.
    + intros (Heq & _). contradiction.
    + destruct a; cbn; intros [= <-]; auto.
    + intros (_ & -> & ->). reflexivity.
Qed.

(** X7.  A mode change that returns an error has changed neither the
    terminal's attributes nor the flag. *)
Theorem failure_leaves_terminal g a s msg :
  ((parlance_repl_enable_raw_mode g a s).2 = lean_io_result_mk_error msg ->
     tty (parlance_repl_enable_raw_mode g a s).1 = tty s /\
     raw_mode_enabled (parlance_repl_enable_raw_mode g a s).1
       = raw_mode_enabled s) /\
  ((parlance_repl_disable_raw_mode a s).2 = lean_io_result_mk_error msg ->
     (parlance_repl_disable_raw_mode a s).1 = s).
Proof.
  destruct (Z.eq_dec (raw_mode_enabled s) 0) as [Hin|Hact].
  - rewrite (enable_when_inactive g a s Hin), (disable_when_inactive a s Hin).
    split; [|discriminate].
    destruct g, a; cbn; intros [= <-]; auto.
  - rewrite (enable_when_active g a s Hact), (disable_when_active a s Hact).
    split; [discriminate|].
    destruct a; cbn; intros [= <-]; auto.
Qed.

(** ** Queries and stale snapshots *)

(** X8.  Size queries and byte reads can be struck from any sequence of
    calls: the state at the end is the same, and so is every reply to the
    mode changes that remain. *)
Theorem queries_can_be_dropped cs : forall s,
  run (List.filter changes_mode cs) s = run cs s /\
  replies (List.filter changes_mode cs) s
    = List.filter mode_reply (replies cs s).
Proof.
  induction cs as [|c cs IH]; intros s; [split; reflexivity|].
  cbn [List.filter replies run].
  rewrite step_reply_kind.
  destruct (changes_mode c) eqn:Hc; cbn [run replies].
  - destruct (IH (step c s).1) as [-> ->]. split; reflexivity.
  - rewrite (step_query c s Hc). apply IH.
Qed.

(** X9.  What [original_termios] holds while the session is inactive is
    never used: two inactive states on the same terminal get the same
    replies to any sequence of calls, end with the same flag and the same
    terminal attributes, and end equal altogether if the session ends
    active. *)
Theorem stale_snapshot_unused cs : forall s1 s2,
  raw_mode_enabled s1 = 0 -> raw_mode_enabled s2 = 0 -> tty s1 = tty s2 ->
  replies cs s1 = replies cs s2 /\
  raw_mode_enabled (run cs s1) = raw_mode_enabled (run cs s2) /\
  tty (run cs s1) = tty (run cs s2) /\
  (raw_mode_enabled (run cs s1) <> 0 -> run cs s1 = run cs s2).
Proof.
  assert (Hgen : forall s1 s2, same_but_stale s1 s2 ->
            replies cs s1 = replies cs s2 /\
            same_but_stale (run cs s1) (run cs s2)).
  { induction cs as [|c cs IH]; intros s1 s2 Hrel; cbn [replies run].
    - split; [reflexivity|exact Hrel].
    - destruct (same_but_stale_step c s1 s2 Hrel) as [Hrep Hnext].
      destruct (IH _ _ Hnext) as [Hreps Hend].
      split; [now rewrite Hrep, Hreps|exact Hend]. }
  intros s1 s2 H1 H2 Htty.
  destruct (Hgen s1 s2) as [Hreps [Heq|(E1 & E2 & Et)]].
  - right. auto.
  - rewrite Heq. auto.
  - split; [exact Hreps|]. split; [congruence|]. split; [exact Et|].
    intros Hne. contradiction.
Qed.

End Further.

(** * The properties on a Linux terminal *)

(** From here on the header is the Linux one wherever none is named. *)
#[local] Existing Instance linux.

Local Abbreviation ok := (lean_io_result_mk_ok tt).

Example raw_cooked : raw (hdr:=linux) cooked = uncooked.
Proof. reflexivity. Qed.

Example raw_uncooked : raw (hdr:=linux) uncooked = uncooked.
Proof. reflexivity. Qed.

Lemma linux_header_ok : header_ok (hdr:=linux).
Proof. unfold header_ok, tcflag_ok; cbn; lia. Defined.

Lemma cooked_ok : termios_ok (hdr:=linux) cooked.
Proof. unfold termios_ok, tcflag_ok; cbn. repeat split; lia. Defined.

(** Scenario of the specification: enable, enable again, disable, disable
    again, all succeeding; the terminal ends where it began. *)
Example fresh_process_scenario :
  run (hdr:=linux)
      [enable_raw_mode tcget_ok tcset_ok; enable_raw_mode tcget_ok tcset_ok;
       disable_raw_mode tcset_ok; disable_raw_mode tcset_ok]
      (initial cooked)
  = State cooked 0 cooked.
Proof. reflexivity. Qed.

(** C1 as the specification states it fails: on a session that is already
    active (here one call after program start) both calls succeed, and the
    terminal goes from its raw attributes to the saved ones. *)
Lemma round_trip_fails_when_active :
  run (hdr:=linux) [enable_raw_mode tcget_ok tcset_ok] (initial cooked)
    = State cooked 1 uncooked /\
  parlance_repl_enable_raw_mode (hdr:=linux) tcget_ok tcset_ok
    (State cooked 1 uncooked) = (State cooked 1 uncooked, ok) /\
  parlance_repl_disable_raw_mode tcset_ok
    (State cooked 1 uncooked) = (State cooked 0 cooked, ok) /\
  tty (State cooked 0 cooked) <> tty (State cooked 1 uncooked).
Proof. repeat split. cbn. discriminate. Qed.

Lemma enable_disable_round_trip_witness :
  raw_mode_enabled (initial (hdr:=linux) cooked) = 0 /\
  tty (State cooked 0 cooked) = tty (initial (hdr:=linux) cooked).
Proof.
  split; [reflexivity|].
  refine (proj1 (enable_disable_round_trip (hdr:=linux)
                   tcget_ok tcset_ok tcset_ok
                   (initial cooked) (State cooked 1 uncooked)
                   (State cooked 0 cooked) _ _) _); reflexivity.
Defined.

Lemma mode_calls_idempotent_witness :
  parlance_repl_enable_raw_mode (hdr:=linux) tcget_ok tcset_fails
    (State cooked 1 uncooked) = (State cooked 1 uncooked, ok) /\
  parlance_repl_disable_raw_mode tcset_fails
    (State cooked 0 cooked) = (State cooked 0 cooked, ok).
Proof.
  split.
  - refine (proj1 (mode_calls_idempotent (hdr:=linux)
                     tcget_ok tcset_fails tcget_ok tcset_ok
                     (State cooked 1 uncooked)) _).
    cbn. lia.
  - refine (proj1 (proj2 (mode_calls_idempotent (hdr:=linux)
                            tcget_ok tcset_fails tcget_ok tcset_ok
                            (State cooked 0 cooked))) _).
    reflexivity.
Defined.

(** C3 as the specification states it fails from right to left: on a terminal
    that was handed over already raw, after entering and leaving raw mode
    the flag is 0 while the live attributes are the raw-mode modification
    of the saved ones. *)
Lemma flag_iff_fails_on_raw_terminal :
  run (hdr:=linux)
      [enable_raw_mode tcget_ok tcset_ok; disable_raw_mode tcset_ok]
      (initial uncooked)
    = State uncooked 0 uncooked /\
  reachable (hdr:=linux) (State uncooked 0 uncooked) /\
  ~ (raw_mode_enabled (State uncooked 0 uncooked) <> 0 <->
     tty (State uncooked 0 uncooked)
       = raw (hdr:=linux) (original_termios (State uncooked 0 uncooked))).
Proof.
  split; [reflexivity|]. split.
  - exists uncooked,
      [enable_raw_mode tcget_ok tcset_ok; disable_raw_mode tcset_ok].
    reflexivity.
  - intros [_ Hback]. apply Hback; reflexivity.
Qed.

Lemma session_invariant_witness :
  raw_mode_enabled
    (run (hdr:=linux) [enable_raw_mode tcget_ok tcset_ok] (initial cooked)) <> 0 /\
  raw (hdr:=linux) cooked <> cooked /\
  (tty (run (hdr:=linux) [enable_raw_mode tcget_ok tcset_ok] (initial cooked))
     = uncooked /\
   last_entry (hdr:=linux) [enable_raw_mode tcget_ok tcset_ok]
     (initial cooked) None = Some cooked) /\
  (raw_mode_enabled
     (run (hdr:=linux)
        [enable_raw_mode tcget_ok tcset_ok; disable_raw_mode tcset_ok]
        (initial cooked)) <> 0 <->
   tty (run (hdr:=linux)
          [enable_raw_mode tcget_ok tcset_ok; disable_raw_mode tcset_ok]
          (initial cooked))
   = raw (hdr:=linux)
       (original_termios
          (run (hdr:=linux)
             [enable_raw_mode tcget_ok tcset_ok; disable_raw_mode tcset_ok]
             (initial cooked)))).
Proof.
  assert (Hact : raw_mode_enabled
            (run (hdr:=linux) [enable_raw_mode tcget_ok tcset_ok]
                 (initial cooked)) <> 0) by (cbn; lia).
  assert (Hfresh : raw (hdr:=linux) cooked <> cooked)
    by (change (uncooked <> cooked); discriminate).
  split; [exact Hact|]. split; [exact Hfresh|]. split.
  - exact (proj1 (session_invariant (hdr:=linux) cooked
                    [enable_raw_mode tcget_ok tcset_ok]) Hact).
  - exact (proj1 (proj2 (proj2 (proj2
             (session_invariant (hdr:=linux) cooked
                [enable_raw_mode tcget_ok tcset_ok;
                 disable_raw_mode tcset_ok])))) Hfresh).
Defined.

Lemma enable_installs_raw_witness :
  header_ok (hdr:=linux) /\ termios_ok (hdr:=linux) cooked /\
  original_termios (State cooked 1 uncooked) = cooked /\
  c_oflag uncooked = c_oflag cooked /\
  c_cc uncooked !! 6%nat = Some 0 /\
  c_cc uncooked !! 5%nat = Some 0.
Proof.
  split; [exact linux_header_ok|]. split; [exact cooked_ok|].
  destruct (enable_installs_raw (hdr:=linux) tcget_ok tcset_ok
              (initial cooked) (State cooked 1 uncooked)
              linux_header_ok cooked_ok eq_refl eq_refl)
    as (Hsaved & _ & _ & _ & Hout & Hvmin & Hvtime & _).
  repeat split; assumption.
Defined.

(** Scenarios of the specification for the window size: a 120x40
    pseudo-terminal, and a pipe on which the query fails. *)
Example size_of_pty s :
  (parlance_repl_get_size (Ioctl 0 (Winsize 40 120)) s).2
  = lean_io_result_mk_ok (120, 40).
Proof. reflexivity. Qed.

Example size_of_pipe ws s :
  (parlance_repl_get_size (Ioctl (-1) ws) s).2
  = lean_io_result_mk_ok (80, 24).
Proof. reflexivity. Qed.

(** C5 as the specification states it fails on positivity: a terminal whose
    window size has been set to 80 columns and 0 rows answers the query
    successfully, and the height returned is 0. *)
Lemma size_height_zero :
  winsize_ok (Winsize 0 80) /\
  (parlance_repl_get_size (Ioctl 0 (Winsize 0 80)) (initial cooked)).2
    = lean_io_result_mk_ok (80, 0) /\
  ~ (0 < 80 /\ 0 < 0).
Proof. unfold winsize_ok; cbn. repeat split; lia. Qed.

Lemma get_size_total_witness :
  winsize_ok (Winsize 40 120) /\
  exists w h,
    (parlance_repl_get_size (Ioctl 0 (Winsize 40 120)) (initial cooked)).2
      = lean_io_result_mk_ok (w, h) /\
    0 < w /\ 0 < h.
Proof.
  assert (Hws : winsize_ok (Winsize 40 120)) by (unfold winsize_ok; cbn; lia).
  split; [exact Hws|].
  destruct (get_size_total (Ioctl 0 (Winsize 40 120)) (initial cooked) Hws)
    as (w & h & Hres & _ & _ & Hw & Hh).
  exists w, h. repeat split; auto. apply Hh. right. right. cbn. lia.
Defined.

Lemma read_byte_total_witness :
  exists v,
    (parlance_repl_read_byte (ReadOutcome 1 97) (initial cooked)).2
      = lean_io_result_mk_ok v /\
    v = Some 97.
Proof.
  destruct (read_byte_total (ReadOutcome 1 97) (initial cooked))
    as (v & Hres & Hsome & _).
  exists v. split; [exact Hres|]. apply Hsome. split; reflexivity.
Defined.

Lemma enable_get_failure_witness :
  raw_mode_enabled (initial cooked) = 0 /\
  parlance_repl_enable_raw_mode (hdr:=linux)
    (tcget_fails zero_termios) tcset_ok (initial cooked)
  = (initial cooked,
     lean_io_result_mk_error "Failed to get terminal attributes").
Proof.
  split; [reflexivity|].
  pose proof (enable_get_failure (hdr:=linux) zero_termios tcset_ok
                (initial cooked) eq_refl) as Hfail.
  destruct (parlance_repl_enable_raw_mode (tcget_fails zero_termios) tcset_ok
              (initial cooked)) as [s' r].
  destruct Hfail as (-> & _ & _ & _ & Hsame).
  now rewrite Hsame.
Defined.

Lemma enable_set_failure_witness :
  raw_mode_enabled (initial cooked) = 0 /\
  parlance_repl_enable_raw_mode (hdr:=linux) tcget_ok tcset_fails
    (initial cooked)
  = (State cooked 0 cooked,
     lean_io_result_mk_error "Failed to set terminal to raw mode").
Proof.
  split; [reflexivity|].
  pose proof (enable_set_failure (hdr:=linux) (initial cooked) eq_refl)
    as Hfail.
  destruct (parlance_repl_enable_raw_mode tcget_ok tcset_fails
              (initial cooked)) as [[snap flag live] r].
  cbn in Hfail. destruct Hfail as (-> & -> & -> & -> & _). reflexivity.
Defined.

Lemma disable_set_failure_witness :
  raw_mode_enabled (State cooked 1 uncooked) <> 0 /\
  parlance_repl_disable_raw_mode tcset_fails (State cooked 1 uncooked)
  = (State cooked 1 uncooked,
     lean_io_result_mk_error "Failed to restore terminal settings").
Proof.
  assert (Hact : raw_mode_enabled (State cooked 1 uncooked) <> 0)
    by (cbn; lia).
  split; [exact Hact|].
  pose proof (disable_set_failure (State cooked 1 uncooked) Hact) as Hfail.
  destruct (parlance_repl_disable_raw_mode tcset_fails
              (State cooked 1 uncooked)) as [s' r].
  destruct Hfail as (-> & -> & _). reflexivity.
Defined.

(** ** The further properties on a Linux terminal *)

Lemma raw_in_range_witness :
  header_ok (hdr:=linux) /\ termios_ok (hdr:=linux) cooked /\
  termios_ok (hdr:=linux) uncooked.
Proof.
  split; [exact linux_header_ok|]. split; [exact cooked_ok|].
  exact (raw_in_range (hdr:=linux) cooked linux_header_ok cooked_ok).
Defined.

Lemma terminal_tracks_inherited_witness :
  raw_mode_enabled
    (run (hdr:=linux)
       [enable_raw_mode tcget_ok tcset_ok; disable_raw_mode tcset_fails]
       (initial cooked)) <> 0 /\
  tty (run (hdr:=linux)
         [enable_raw_mode tcget_ok tcset_ok; disable_raw_mode tcset_fails]
         (initial cooked)) = uncooked.
Proof.
  assert (Hact : raw_mode_enabled
            (run (hdr:=linux)
               [enable_raw_mode tcget_ok tcset_ok; disable_raw_mode tcset_fails]
               (initial cooked)) <> 0) by (cbn; lia).
  split; [exact Hact|].
  exact (proj2 (proj2 (terminal_tracks_inherited (hdr:=linux) cooked
                         [enable_raw_mode tcget_ok tcset_ok;
                          disable_raw_mode tcset_fails]) Hact)).
Defined.

Lemma result_reports_session_witness :
  (parlance_repl_enable_raw_mode (hdr:=linux) tcget_ok tcset_ok
     (initial cooked)).2 = ok /\
  raw_mode_enabled
    (parlance_repl_enable_raw_mode (hdr:=linux) tcget_ok tcset_ok
       (initial cooked)).1 <> 0.
Proof.
  split; [reflexivity|].
  apply (proj1 (proj1 (result_reports_session (hdr:=linux)
                         tcget_ok tcset_ok (initial cooked)))).
  reflexivity.
Defined.

Lemma error_names_failed_call_witness :
  (parlance_repl_enable_raw_mode (hdr:=linux) tcget_ok tcset_fails
     (initial cooked)).2
    = lean_io_result_mk_error "Failed to set terminal to raw mode" /\
  raw_mode_enabled (initial (hdr:=linux) cooked) = 0.
Proof.
  split; [reflexivity|].
  apply (proj1 (proj1 (error_names_failed_call (hdr:=linux)
                         tcget_ok tcset_fails (initial cooked)
                         "Failed to set terminal to raw mode"))).
  reflexivity.
Defined.

Lemma failure_leaves_terminal_witness :
  (parlance_repl_disable_raw_mode tcset_fails (State cooked 1 uncooked)).2
    = lean_io_result_mk_error "Failed to restore terminal settings" /\
  (parlance_repl_disable_raw_mode tcset_fails (State cooked 1 uncooked)).1
    = State cooked 1 uncooked.
Proof.
  split; [reflexivity|].
  apply (proj2 (failure_leaves_terminal (hdr:=linux) tcget_ok tcset_fails
                  (State cooked 1 uncooked)
                  "Failed to restore terminal settings")).
  reflexivity.
Defined.

Lemma stale_snapshot_unused_witness :
  raw_mode_enabled (initial (hdr:=linux) cooked) = 0 /\
  raw_mode_enabled (State uncooked 0 cooked) = 0 /\
  tty (initial (hdr:=linux) cooked) = tty (State uncooked 0 cooked) /\
  replies (hdr:=linux)
    [enable_raw_mode tcget_ok tcset_ok; disable_raw_mode tcset_ok]
    (initial cooked)
  = replies (hdr:=linux)
      [enable_raw_mode tcget_ok tcset_ok; disable_raw_mode tcset_ok]
      (State uncooked 0 cooked).
Proof.
  repeat (split; [reflexivity|]).
  apply (stale_snapshot_unused (hdr:=linux)
           [enable_raw_mode tcget_ok tcset_ok; disable_raw_mode tcset_ok]
           (initial cooked) (State uncooked 0 cooked));
    reflexivity.
Defined.
